(** * LieLens front end: backend discovery, analysis orchestration and the
    local demo-analysis generator (src/unnamed/part_000).

    Strings are modelled as [String.string] (one byte per character); a JS
    object literal is modelled as a JSON value whose objects are association
    lists in insertion order. The current time read by [new Date()] is an
    explicit argument. *)

From Stdlib Require Import String Ascii List ZArith Bool Lia DecimalString.
Import ListNotations.
Open Scope string_scope.
Open Scope Z_scope.

(** ** JSON values (JS object literals and parsed response bodies) *)

Set Warnings "-register-all".

Inductive json : Type :=
| JNull
| JBool (b : bool)
| JNum (n : Z)
| JStr (s : string)
| JArr (xs : list json)
| JObj (kvs : list (string * json)).

(** Property access [o.k]; [None] plays the role of [undefined]. *)
Definition get (k : string) (v : json) : option json :=
  match v with
  | JObj kvs =>
      match find (fun kv => String.eqb (fst kv) k) kvs with
      | Some (_, x) => Some x
      | None => None
      end
  | _ => None
  end.

Definition getp (path : list string) (v : json) : option json :=
  fold_left (fun acc k => match acc with Some x => get k x | None => None end)
            path (Some v).

(** ** String primitives used by [getDemoAnalysis] *)

(** [String.prototype.includes]: substring search. *)
Fixpoint includes (s needle : string) : bool :=
  prefix needle s ||
  match s with
  | EmptyString => false
  | String _ rest => includes rest needle
  end.

Definition is_upper (c : ascii) : bool :=
  let n := nat_of_ascii c in (Nat.leb 65 n && Nat.leb n 90)%bool.

(** Case folding of the [/i] flag restricted to byte characters: only the
    ASCII letters fold (a character at or above 128 never canonicalises to
    an ASCII one). *)
Definition to_lower (c : ascii) : ascii :=
  if is_upper c then ascii_of_nat (nat_of_ascii c + 32) else c.

Fixpoint prefix_ci (p s : string) : bool :=
  match p, s with
  | EmptyString, _ => true
  | String a p', String b s' => Ascii.eqb (to_lower a) (to_lower b) && prefix_ci p' s'
  | String _ _, EmptyString => false
  end.

(** [re.test(s)] for a regex that is an alternation of literal words with
    the [i] flag: some start position where some alternative matches. *)
Fixpoint test_alt_ci (words : list string) (s : string) : bool :=
  existsb (fun w => prefix_ci w s) words ||
  match s with
  | EmptyString => false
  | String _ rest => test_alt_ci words rest
  end.

(** [/[A-Z]{4,}/.test(s)]: some start position followed by four [A-Z]. *)
Fixpoint upper_prefix (n : nat) (s : string) : bool :=
  match n, s with
  | O, _ => true
  | S n', String c rest => is_upper c && upper_prefix n' rest
  | S _, EmptyString => false
  end.

Fixpoint test_caps4 (s : string) : bool :=
  upper_prefix 4 s ||
  match s with
  | EmptyString => false
  | String _ rest => test_caps4 rest
  end.

Definition emotional_words : list string :=
  ["breaking"; "shocking"; "secret"; "exclusive"; "banned"; "hidden"; "urgent"].

(** [String.prototype.trim]: the JS white space and line terminators that
    fit in a byte (TAB, LF, VT, FF, CR, SPACE, NBSP). *)
Definition is_js_space (c : ascii) : bool :=
  existsb (Nat.eqb (nat_of_ascii c)) [9; 10; 11; 12; 13; 32; 160]%nat.

Fixpoint trim_start (s : string) : string :=
  match s with
  | EmptyString => EmptyString
  | String c rest => if is_js_space c then trim_start rest else s
  end.

Fixpoint rev_str (s : string) : string :=
  match s with
  | EmptyString => EmptyString
  | String c rest => rev_str rest ++ String c EmptyString
  end.

Definition trim (s : string) : string := rev_str (trim_start (rev_str (trim_start s))).

(** ** [getDemoAnalysis] (part_000, lines 138-248) *)

Section DemoAnalysis.

Variable content : string.

Definition contentLength : Z := Z.of_nat (String.length content).
Definition hasURL : bool := includes content "http".
Definition hasEmotionalWords : bool := test_alt_ci emotional_words content.
Definition hasAllCaps : bool := test_caps4 content.

(** [let riskScore = 30; if (...) riskScore += ...;] *)
Definition riskScore : Z :=
  let r := 30 in
  let r := if hasEmotionalWords then r + 25 else r in
  let r := if hasAllCaps then r + 20 else r in
  let r := if includes content "!" then r + 10 else r in
  let r := if contentLength <? 100 then r - 10 else r in
  r.

Definition riskLevel : string :=
  if riskScore >? 70 then "HIGH" else if riskScore >? 50 then "MEDIUM" else "LOW".

Definition credibility : string :=
  if riskScore >? 70 then "QUESTIONABLE"
  else if riskScore >? 50 then "QUESTIONABLE" else "RELIABLE".

Definition tactic (name descr example ty : string) : json :=
  JObj [("tactic_name", JStr name); ("description", JStr descr);
        ("example_from_content", JStr example); ("manipulation_type", JStr ty)].

Definition emotional_tactics : list json :=
  [tactic "Emotional Manipulation"
          "Uses strong emotional language to bypass critical thinking"
          (substring 0 100 content ++ "...") "EMOTIONAL";
   tactic "Urgency Creation"
          "Creates artificial time pressure to prompt immediate action"
          "Act fast" "SOCIAL"].

Definition demo_tactics : list json :=
  [tactic "Demo Analysis" "This is a demonstration of our analysis capabilities"
          "Sample content analysis" "LOGICAL"].

Definition cognitive_biases_list : list json :=
  [JObj [("bias_name", JStr "Fear of Missing Out (FOMO)");
         ("explanation", JStr "The tendency to feel anxiety about missing beneficial opportunities");
         ("how_its_exploited", JStr "Content suggests exclusive or time-limited information");
         ("resistance_tip", JStr "Ask yourself: What's the real urgency? Can I verify this independently?")];
   JObj [("bias_name", JStr "Authority Bias");
         ("explanation", JStr "Tendency to trust information from perceived authority figures");
         ("how_its_exploited", JStr "References to 'scientists' or 'experts' without specific credentials");
         ("resistance_tip", JStr "Check the actual credentials and affiliations of cited experts")]].

Definition emotional_flags : list json :=
  [JObj [("claim", JStr "Scientists are 'shocked' by this discovery");
         ("flag_reason", JStr "Vague, unsupported claims about scientific consensus");
         ("verification_suggestion", JStr "Look for peer-reviewed studies and specific researcher names")]].

Definition strs (xs : list string) : json := JArr (map JStr xs).

(** [now] is the value of [new Date().toISOString()] at the call. *)
Definition getDemoAnalysis (now : string) : json :=
  JObj [
    ("analysis_summary", JObj [
       ("risk_level", JStr riskLevel);
       ("risk_score", JNum (Z.min riskScore 95));
       ("primary_concern", JStr (if hasEmotionalWords
          then "Content uses emotional manipulation and urgency tactics"
          else "Content appears relatively neutral"));
       ("credibility_rating", JStr credibility)]);
    ("detected_tactics", JArr (if hasEmotionalWords then emotional_tactics else demo_tactics));
    ("cognitive_biases", JArr cognitive_biases_list);
    ("fact_check_flags", JArr (if hasEmotionalWords then emotional_flags else []));
    ("educational_insights", JObj [
       ("why_convincing", JStr (if hasEmotionalWords
          then "Uses emotional triggers and authority appeals to create trust and urgency"
          else "Content appears straightforward without obvious manipulation"));
       ("target_audience", JStr "People seeking health solutions or exclusive information");
       ("psychological_appeal", JStr "Combines fear, hope, and exclusivity to motivate action");
       ("critical_questions", strs [
          "Who specifically are these 'scientists'?";
          "What evidence supports these claims?";
          "Why would this information be suppressed?";
          "What are the potential risks or side effects?"]);
       ("verification_steps", strs [
          "Search for peer-reviewed research on this topic";
          "Check multiple reputable health information sources";
          "Consult with healthcare professionals";
          "Look for potential conflicts of interest"])]);
    ("recommendations", JObj [
       ("immediate_action", JStr (if riskScore >? 70
          then "Exercise extreme caution - verify all claims before acting"
          else "Proceed with normal fact-checking practices"));
       ("further_research", strs [
          "Search scientific databases for related research";
          "Check fact-checking websites";
          "Consult domain experts"]);
       ("share_decision", JStr (if riskScore >? 70 then "AVOID_SHARING" else "SHARE_WITH_CONTEXT"));
       ("learning_opportunity", JStr "Practice identifying emotional manipulation in content")]);
    ("confidence_metrics", JObj [
       ("analysis_confidence", JNum 75);
       ("data_completeness", JNum 60);
       ("context_availability", JStr "PARTIAL")]);
    ("metadata", JObj [
       ("analysis_timestamp", JStr now);
       ("model_used", JStr "demo-mode");
       ("content_length", JNum contentLength);
       ("source_type", JStr (if hasURL then "url" else "text"))])].

End DemoAnalysis.

Example demo_empty : riskScore "" = 20. Proof. reflexivity. Qed.
Example demo_breaking : riskScore "BREAKING: the secret is out!" = 75. Proof. reflexivity. Qed.
Example demo_level : riskLevel "BREAKING: the secret is out!" = "HIGH". Proof. reflexivity. Qed.
Example trim_ex : trim "  ab c  " = "ab c". Proof. reflexivity. Qed.

(** ** Erasing the one time-dependent field *)

Definition set_field (k : string) (v : json) (o : json) : json :=
  match o with
  | JObj kvs => JObj (map (fun kv => if String.eqb (fst kv) k then (k, v) else kv) kvs)
  | _ => o
  end.

(** The report with [metadata.analysis_timestamp] replaced by [null]. *)
Definition strip_timestamp (o : json) : json :=
  match get "metadata" o with
  | Some m => set_field "metadata" (set_field "analysis_timestamp" JNull m) o
  | None => o
  end.

(** ** The network, as seen by [fetch] *)

(** Outcome of one [fetch]: the promise rejects (network or CORS failure),
    or a response with its [ok] flag and the result of [response.json()]
    ([None] when the body does not parse as JSON, so the promise rejects). *)
Inductive fetch_result : Type :=
| FetchThrows
| FetchResponse (ok : bool) (body : option json).

Definition response_ok (r : fetch_result) : bool :=
  match r with
  | FetchResponse true _ => true
  | _ => false
  end.

(** ** [checkBackendConnection] (part_000, lines 32-63) *)

Definition backendUrls : list string :=
  ["https://your-render-app.onrender.com";
   "https://your-railway-app.up.railway.app";
   "http://localhost:8000";
   "https://mindful-compass-api-1082426526892.us-central1.run.app"].

Record backend_state : Type := {
  activeBackendUrl : option string;
  statusText : string
}.

Definition initial_state : backend_state :=
  {| activeBackendUrl := None; statusText := "" |}.

Section Resolver.

(** The GET reachability probe, by requested URL. *)
Variable fetch_get : string -> fetch_result.

(** The [for ... of] loop: the list of URLs requested, and the URL
    returned from inside the loop, if any. *)
Fixpoint probe_loop (urls : list string) : list string * option string :=
  match urls with
  | [] => ([], None)
  | url :: rest =>
      match fetch_get (url ++ "/") with
      | FetchResponse true _ => ([url ++ "/"], Some url)
      | _ =>
          let '(log, res) := probe_loop rest in
          ((url ++ "/") :: log, res)
      end
  end.

(** The status text is first set to "Checking backend connection..." and
    always overwritten before the function returns. *)
Definition checkBackendConnection (urls : list string) (st : backend_state)
  : list string * backend_state :=
  let '(log, res) := probe_loop urls in
  match res with
  | Some url =>
      (log, {| activeBackendUrl := Some url; statusText := "Connected to backend" |})
  | None =>
      (log, {| activeBackendUrl := activeBackendUrl st;
               statusText := "Backend offline - Demo mode only" |})
  end.

End Resolver.

(** ** [analyzeContent] (part_000, lines 83-135) *)

(** What the user sees at the end of one submission. *)
Inductive outcome : Type :=
| ValidationError (msg : string)
| Rendered (data : json) (notice : option string)
| Failed (msg : string) (notice : option string).

Section Orchestrator.

(** The POST to [url] with body [{content}]. *)
Variable fetch_post : string -> string -> fetch_result.
(** The rendering collaborator: [Some msg] when [displayReport] throws. *)
Variable displayReport : json -> option string.
(** [new Date().toISOString()] at the time of the call. *)
Variable now : string.

Definition demo_notice : string := "Using demo mode - backend temporarily unavailable".
Definition offline_notice : string := "Running in demo mode".

(** The outer [try]: [displayReport(analysisData)] and its [catch]. *)
Definition render (data : json) (notice : option string) : outcome :=
  match displayReport data with
  | None => Rendered data notice
  | Some msg => Failed ("Analysis failed: " ++ msg) notice
  end.

(** Returns the POST requests issued (URL, content) and the outcome. *)
Definition analyzeContent (active : option string) (value : string)
  : list (string * string) * outcome :=
  let content := trim value in
  if String.eqb content "" then
    ([], ValidationError "Please enter some content to analyze")
  else
    match active with
    | Some url =>
        if String.eqb url "" then
          ([], render (getDemoAnalysis content now) (Some offline_notice))
        else
          let target := url ++ "/analyze" in
          let fallback := render (getDemoAnalysis content now) (Some demo_notice) in
          match fetch_post target content with
          | FetchThrows => ([(target, content)], fallback)
          | FetchResponse false _ => ([(target, content)], fallback)
          | FetchResponse true None => ([(target, content)], fallback)
          | FetchResponse true (Some analysisData) =>
              ([(target, content)], render analysisData None)
          end
    | None => ([], render (getDemoAnalysis content now) (Some offline_notice))
    end.

End Orchestrator.

(** ** JavaScript semantics used by [displayReport]

    A JS value read from a report is a JSON value or [undefined] ([None]).
    A computation that may throw a [TypeError] returns an [option]; [None]
    is the throw. JSON numbers are integers within the safe-integer range,
    which JS prints in plain decimal. *)

Definition jsval : Type := option json.

Definition obind {A B : Type} (m : option A) (f : A -> option B) : option B :=
  match m with Some a => f a | None => None end.

Notation "x <- m ;; f" := (obind m (fun x => f))
  (at level 61, m at next level, right associativity).

Fixpoint mapM {A B : Type} (f : A -> option B) (xs : list A) : option (list B) :=
  match xs with
  | [] => Some []
  | x :: rest => y <- f x ;; ys <- mapM f rest ;; Some (y :: ys)
  end.

(** ToBoolean. *)
Definition truthy (v : jsval) : bool :=
  match v with
  | None | Some JNull => false
  | Some (JBool b) => b
  | Some (JNum n) => negb (n =? 0)
  | Some (JStr s) => negb (String.eqb s "")
  | Some _ => true
  end.

(** [a || b]. *)
Definition js_or (a b : jsval) : jsval := if truthy a then a else b.

(** [v.k] for the property names [displayReport] reads: own properties of
    an object, [length] of an array or a string; [null] and [undefined]
    throw; numbers and booleans have none of these properties. *)
Definition getprop (v : jsval) (k : string) : option jsval :=
  match v with
  | None | Some JNull => None
  | Some (JObj kvs) => Some (get k (JObj kvs))
  | Some (JArr xs) =>
      Some (if String.eqb k "length" then Some (JNum (Z.of_nat (List.length xs))) else None)
  | Some (JStr s) =>
      Some (if String.eqb k "length" then Some (JNum (Z.of_nat (String.length s))) else None)
  | Some _ => Some None
  end.

Definition num_to_string (n : Z) : string :=
  DecimalString.NilZero.string_of_int (Z.to_int n).

Definition has_own (k : string) (kvs : list (string * json)) : bool :=
  existsb (fun kv => String.eqb (fst kv) k) kvs.

(** ToString of a JSON value. An array is joined with "," ([null] elements
    give ""); an object gives "[object Object]" unless it has an own
    (non-callable) [toString], in which case ToPrimitive throws. *)
Fixpoint to_str (v : json) : option string :=
  match v with
  | JNull => Some "null"
  | JBool b => Some (if b then "true" else "false")
  | JNum n => Some (num_to_string n)
  | JStr s => Some s
  | JArr xs =>
      let fix join (l : list json) : option string :=
        match l with
        | [] => Some ""
        | x :: rest =>
            e <- match x with JNull => Some "" | _ => to_str x end ;;
            match rest with
            | [] => Some e
            | _ => r <- join rest ;; Some (e ++ "," ++ r)
            end
        end in
      join xs
  | JObj kvs => if has_own "toString" kvs then None else Some "[object Object]"
  end.

(** ToString of a JS value, as in a template literal [`${v}`]. *)
Definition js_to_string (v : jsval) : option string :=
  match v with
  | None => Some "undefined"
  | Some j => to_str j
  end.

(** [el.textContent = v]: [null] and [undefined] give the empty string. *)
Definition text_content (v : jsval) : option string :=
  match v with
  | None | Some JNull => Some ""
  | Some j => to_str j
  end.

(** [String.prototype.toLowerCase] on one-byte characters: ASCII and
    Latin-1 capitals. *)
Definition js_lower_char (c : ascii) : ascii :=
  let n := nat_of_ascii c in
  if (Nat.leb 65 n && Nat.leb n 90) || (Nat.leb 192 n && Nat.leb n 222 && negb (Nat.eqb n 215))
  then ascii_of_nat (n + 32) else c.

Fixpoint js_lower (s : string) : string :=
  match s with
  | EmptyString => EmptyString
  | String c rest => String (js_lower_char c) (js_lower rest)
  end.

(** [s.replace('_', '-')]: only the first occurrence is replaced. *)
Fixpoint replace_first_underscore (s : string) : string :=
  match s with
  | EmptyString => EmptyString
  | String c rest =>
      if Ascii.eqb c "_" then String "-" rest
      else String c (replace_first_underscore rest)
  end.

(** [getRiskClass] / [getRatingClass]: a truthy value that is not a string
    has no callable [toLowerCase], so the call throws. *)
Definition css_class (v : jsval) : option string :=
  if truthy v then
    match v with
    | Some (JStr s) => Some (replace_first_underscore (js_lower s))
    | _ => None
    end
  else Some "".

(** [safeText(text) = text || 'Not provided'], converted to a string. *)
Definition safe_text (v : jsval) : option string :=
  js_to_string (js_or v (Some (JStr "Not provided"))).

Definition nl : string := String (ascii_of_nat 10) EmptyString.
Definition dq : string := String (ascii_of_nat 34) EmptyString.

(** The template literal of the tactic card; the holes are, in order: [safeText(tactic.tactic_name)], [getRatingClass(tactic.manipulation_type)], [safeText(tactic.manipulation_type)], [safeText(tactic.description)], [safeText(tactic.example_from_content)]. *)
Definition tactic_html (h1 h2 h3 h4 h5 : string) : string :=
  nl ++
  "                <div class=" ++
  dq ++
  "tactic-header" ++
  dq ++
  ">" ++
  nl ++
  "                    <span class=" ++
  dq ++
  "tactic-name" ++
  dq ++
  ">" ++
  h1 ++
  "</span>" ++
  nl ++
  "                    <span class=" ++
  dq ++
  "manipulation-type " ++
  h2 ++
  dq ++
  ">" ++
  h3 ++
  "</span>" ++
  nl ++
  "                </div>" ++
  nl ++
  "                <p class=" ++
  dq ++
  "tactic-description" ++
  dq ++
  ">" ++
  h4 ++
  "</p>" ++
  nl ++
  "                <div class=" ++
  dq ++
  "tactic-example" ++
  dq ++
  ">" ++
  nl ++
  "                    <p>" ++
  h5 ++
  "</p>" ++
  nl ++
  "                </div>" ++
  nl ++
  "            ".

(** The template literal of the bias card; the holes are, in order: [safeText(bias.bias_name)], [safeText(bias.explanation)], [safeText(bias.how_its_exploited)], [safeText(bias.resistance_tip)]. *)
Definition bias_html (h1 h2 h3 h4 : string) : string :=
  nl ++
  "                <div class=" ++
  dq ++
  "bias-header" ++
  dq ++
  ">" ++
  nl ++
  "                    <h4>" ++
  h1 ++
  "</h4>" ++
  nl ++
  "                    <p>" ++
  h2 ++
  "</p>" ++
  nl ++
  "                </div>" ++
  nl ++
  "                <p><strong>How it's exploited:</strong> " ++
  h3 ++
  "</p>" ++
  nl ++
  "                <p class=" ++
  dq ++
  "resistance-tip" ++
  dq ++
  "><strong>Tip:</strong> " ++
  h4 ++
  "</p>" ++
  nl ++
  "            ".

(** The template literal of the flag card; the holes are, in order: [safeText(flag.claim)], [safeText(flag.flag_reason)], [safeText(flag.verification_suggestion)]. *)
Definition flag_html (h1 h2 h3 : string) : string :=
  nl ++
  "                <p class=" ++
  dq ++
  "flag-claim" ++
  dq ++
  ">Claim: " ++
  dq ++
  h1 ++
  dq ++
  "</p>" ++
  nl ++
  "                <p class=" ++
  dq ++
  "flag-reason" ++
  dq ++
  "><strong>Reason:</strong> " ++
  h2 ++
  "</p>" ++
  nl ++
  "                <p class=" ++
  dq ++
  "flag-reason" ++
  dq ++
  "><strong>Suggestion:</strong> " ++
  h3 ++
  "</p>" ++
  nl ++
  "            ".

(** ** [displayReport] (part_000 lines 301-440; lielens-frontend/script.js
    lines 71-230)

    The two versions are the same code except for the defaults that the
    part_000 version adds ([|| {}], [|| 'UNKNOWN'], [|| 0]); [enhanced]
    selects them. The result records the text and class names written
    into the page ([None] when the function throws). The page elements are
    assumed present; the progress-bar widths are the same strings as the
    percentage texts. *)

Record summary_view : Type := {
  riskLevelText : string; riskLevelClass : string;
  credibilityText : string; credibilityClass : string;
  primaryConcern : string }.

Record insights_view : Type := {
  whyConvincing : string; targetAudience : string; psychologicalAppeal : string;
  criticalQuestions : list string; verificationSteps : list string }.

Record recs_view : Type := {
  immediateAction : string; shareDecisionClass : string; decisionBadge : string;
  learningOpportunity : string; furtherResearch : list string }.

Record metrics_view : Type := {
  analysisConfidenceText : string; dataCompletenessText : string;
  contextText : string; contextClass : string }.

(** [tacticCards] / [biasCards] are [None] when the placeholder paragraph
    is shown instead of cards. *)
Record view : Type := {
  summaryView : summary_view;
  tacticCards : option (list string);
  biasCards : option (list string);
  insightsView : insights_view;
  flagCards : list string;
  factCheckHidden : bool;
  recsView : recs_view;
  metricsView : metrics_view }.

Section Render.

(** Whether [ToNumber(s) > 0] for a string [s] (the JS string-to-number
    grammar); reached only when a list field is an object with a [length]
    property holding a string or an array. *)
Variable str_gt0 : string -> bool.

(** [v > 0]. *)
Definition gt0 (v : jsval) : option bool :=
  match v with
  | None | Some JNull => Some false
  | Some (JBool b) => Some b
  | Some (JNum n) => Some (0 <? n)
  | Some (JStr s) => Some (str_gt0 s)
  | Some (JArr xs) => s <- to_str (JArr xs) ;; Some (str_gt0 s)
  | Some (JObj kvs) => if has_own "toString" kvs then None else Some false
  end.

(** [if (v && v.length > 0) v.forEach(...)]: [Some (Some xs)] when the
    loop runs over [xs], [Some None] when the guard is false; a value that
    passes the guard but is not an array has no callable [forEach]. *)
Definition guarded_list (v : jsval) : option (option (list json)) :=
  if truthy v then
    l <- getprop v "length" ;;
    b <- gt0 l ;;
    if b then
      match v with
      | Some (JArr xs) => Some (Some xs)
      | _ => None
      end
    else Some None
  else Some None.

Definition tactic_card (tactic : json) : option string :=
  name <- getprop (Some tactic) "tactic_name" ;; h1 <- safe_text name ;;
  ty <- getprop (Some tactic) "manipulation_type" ;; h2 <- css_class ty ;;
  h3 <- safe_text ty ;;
  descr <- getprop (Some tactic) "description" ;; h4 <- safe_text descr ;;
  ex <- getprop (Some tactic) "example_from_content" ;; h5 <- safe_text ex ;;
  Some (tactic_html h1 h2 h3 h4 h5).

Definition bias_card (bias : json) : option string :=
  a <- getprop (Some bias) "bias_name" ;; h1 <- safe_text a ;;
  b <- getprop (Some bias) "explanation" ;; h2 <- safe_text b ;;
  c <- getprop (Some bias) "how_its_exploited" ;; h3 <- safe_text c ;;
  d <- getprop (Some bias) "resistance_tip" ;; h4 <- safe_text d ;;
  Some (bias_html h1 h2 h3 h4).

Definition flag_card (flag : json) : option string :=
  a <- getprop (Some flag) "claim" ;; h1 <- safe_text a ;;
  b <- getprop (Some flag) "flag_reason" ;; h2 <- safe_text b ;;
  c <- getprop (Some flag) "verification_suggestion" ;; h3 <- safe_text c ;;
  Some (flag_html h1 h2 h3).

(** Cards of a guarded list; [None] inside for the placeholder branch. *)
Definition cards (card : json -> option string) (v : jsval) : option (option (list string)) :=
  g <- guarded_list v ;;
  match g with
  | Some xs => cs <- mapM card xs ;; Some (Some cs)
  | None => Some None
  end.

(** [li.textContent = item] for each item of a guarded list. *)
Definition items (v : jsval) : option (list string) :=
  g <- guarded_list v ;;
  match g with
  | Some xs => mapM (fun x => text_content (Some x)) xs
  | None => Some []
  end.

Definition default_to (enhanced : bool) (d v : jsval) : jsval :=
  if enhanced then js_or v d else v.

Definition empty_obj : jsval := Some (JObj []).
Definition unknown : jsval := Some (JStr "UNKNOWN").

Definition render_summary (enhanced : bool) (data : json) : option summary_view :=
  s <- getprop (Some data) "analysis_summary" ;;
  let summary := default_to enhanced empty_obj s in
  rl <- getprop summary "risk_level" ;;
  t1 <- text_content (default_to enhanced unknown rl) ;;
  c1 <- css_class rl ;;
  cr <- getprop summary "credibility_rating" ;;
  t2 <- text_content (default_to enhanced unknown cr) ;;
  c2 <- css_class cr ;;
  pc <- getprop summary "primary_concern" ;;
  t3 <- safe_text pc ;;
  Some {| riskLevelText := t1; riskLevelClass := "risk-level " ++ c1;
          credibilityText := t2; credibilityClass := "rating-value " ++ c2;
          primaryConcern := t3 |}.

Definition render_insights (enhanced : bool) (data : json) : option insights_view :=
  i <- getprop (Some data) "educational_insights" ;;
  let insights := default_to enhanced empty_obj i in
  a <- getprop insights "why_convincing" ;; t1 <- safe_text a ;;
  b <- getprop insights "target_audience" ;; t2 <- safe_text b ;;
  c <- getprop insights "psychological_appeal" ;; t3 <- safe_text c ;;
  q <- getprop insights "critical_questions" ;; qs <- items q ;;
  v <- getprop insights "verification_steps" ;; vs <- items v ;;
  Some {| whyConvincing := t1; targetAudience := t2; psychologicalAppeal := t3;
          criticalQuestions := qs; verificationSteps := vs |}.

Definition render_recs (enhanced : bool) (data : json) : option recs_view :=
  r <- getprop (Some data) "recommendations" ;;
  let recs := default_to enhanced empty_obj r in
  a <- getprop recs "immediate_action" ;; t1 <- safe_text a ;;
  sd <- getprop recs "share_decision" ;; c <- css_class sd ;; t2 <- safe_text sd ;;
  l <- getprop recs "learning_opportunity" ;; t3 <- safe_text l ;;
  fr <- getprop recs "further_research" ;; frs <- items fr ;;
  Some {| immediateAction := t1; shareDecisionClass := "share-decision " ++ c;
          decisionBadge := t2; learningOpportunity := t3; furtherResearch := frs |}.

Definition render_metrics (enhanced : bool) (data : json) : option metrics_view :=
  m <- getprop (Some data) "confidence_metrics" ;;
  let metrics := default_to enhanced empty_obj m in
  ac <- getprop metrics "analysis_confidence" ;;
  dc <- getprop metrics "data_completeness" ;;
  t1 <- js_to_string (default_to enhanced (Some (JNum 0)) ac) ;;
  t2 <- js_to_string (default_to enhanced (Some (JNum 0)) dc) ;;
  ca <- getprop metrics "context_availability" ;;
  t3 <- text_content (default_to enhanced unknown ca) ;;
  c <- css_class ca ;;
  Some {| analysisConfidenceText := t1 ++ "%"; dataCompletenessText := t2 ++ "%";
          contextText := t3; contextClass := "context-badge " ++ c |}.

Definition display_report (enhanced : bool) (data : json) : option view :=
  sv <- render_summary enhanced data ;;
  dt <- getprop (Some data) "detected_tactics" ;; tc <- cards tactic_card dt ;;
  cb <- getprop (Some data) "cognitive_biases" ;; bc <- cards bias_card cb ;;
  iv <- render_insights enhanced data ;;
  ff <- getprop (Some data) "fact_check_flags" ;; fc <- cards flag_card ff ;;
  rv <- render_recs enhanced data ;;
  mv <- render_metrics enhanced data ;;
  Some {| summaryView := sv; tacticCards := tc; biasCards := bc; insightsView := iv;
          flagCards := match fc with Some cs => cs | None => [] end;
          factCheckHidden := match fc with Some _ => false | None => true end;
          recsView := rv; metricsView := mv |}.

(** part_000's [displayReport]. *)
Definition displayReport : json -> option view := display_report true.

(** lielens-frontend/script.js's [displayReport]. *)
Definition displayReport_legacy : json -> option view := display_report false.

End Render.

(** part_000's [displayReport] as the rendering collaborator of
    [analyzeContent]: [Some msg] when it throws, [msg] being the engine's
    [TypeError] message. *)
Definition displayReport_throws (str_gt0 : string -> bool) (msg : string) (d : json)
  : option string :=
  match displayReport str_gt0 d with
  | Some _ => None
  | None => Some msg
  end.

(** ** The form submit handler of lielens-frontend/script.js (lines 11-47) *)

Definition backendUrl : string :=
  "https://mindful-compass-api-1082426526892.us-central1.run.app".

(** [LegacyIgnored]: the early [return] on empty input (nothing shown);
    [LegacyError msg]: [showError(error.message)]. *)
Inductive legacy_outcome : Type :=
| LegacyIgnored
| LegacyShown (v : view)
| LegacyError (msg : string).

Section LegacySubmit.

Variable str_gt0 : string -> bool.
Variable fetch_post : string -> string -> fetch_result.
(** The engine's messages: the rejected [fetch], the [SyntaxError] of
    [response.json()] and a [TypeError]. *)
Variables fetch_error_message json_error_message type_error_message : string.

Definition legacy_submit (value : string) : list (string * string) * legacy_outcome :=
  let content := trim value in
  if String.eqb content "" then ([], LegacyIgnored)
  else
    let target := backendUrl ++ "/analyze" in
    ([(target, content)],
     match fetch_post target content with
     | FetchThrows => LegacyError fetch_error_message
     | FetchResponse _ None => LegacyError json_error_message
     | FetchResponse false (Some errorData) =>
         (* throw new Error(errorData.detail || 'Analysis failed') *)
         match getprop (Some errorData) "detail" with
         | None => LegacyError type_error_message
         | Some d =>
             match js_to_string (js_or d (Some (JStr "Analysis failed"))) with
             | Some m => LegacyError m
             | None => LegacyError type_error_message
             end
         end
     | FetchResponse true (Some analysisData) =>
         match displayReport_legacy str_gt0 analysisData with
         | Some v => LegacyShown v
         | None => LegacyError type_error_message
         end
     end).

End LegacySubmit.

(** ** The Report schema of the spec (section 3), as a checker *)

Definition fld (k : string) (o : option json) : option json :=
  match o with Some x => get k x | None => None end.

Definition is_str (o : option json) : bool :=
  match o with Some (JStr _) => true | _ => false end.

Definition is_enum (vals : list string) (o : option json) : bool :=
  match o with Some (JStr s) => existsb (String.eqb s) vals | _ => false end.

Definition is_int_in (lo hi : Z) (o : option json) : bool :=
  match o with Some (JNum n) => (lo <=? n) && (n <=? hi) | _ => false end.

Definition is_nat_int (o : option json) : bool :=
  match o with Some (JNum n) => 0 <=? n | _ => false end.

Definition is_list_of (ok : json -> bool) (o : option json) : bool :=
  match o with Some (JArr xs) => forallb ok xs | _ => false end.

Definition has_strs (ks : list string) (x : json) : bool :=
  forallb (fun k => is_str (get k x)) ks.

Definition tactic_ok (x : json) : bool :=
  has_strs ["tactic_name"; "description"; "example_from_content"] x &&
  is_enum ["EMOTIONAL"; "SOCIAL"; "LOGICAL"] (get "manipulation_type" x).

Definition bias_ok : json -> bool :=
  has_strs ["bias_name"; "explanation"; "how_its_exploited"; "resistance_tip"].

Definition flag_ok : json -> bool :=
  has_strs ["claim"; "flag_reason"; "verification_suggestion"].

Definition str_ok (x : json) : bool := is_str (Some x).

Definition Report_schema_ok (r : json) : bool :=
  let s := get "analysis_summary" r in
  let e := get "educational_insights" r in
  let m := get "recommendations" r in
  let c := get "confidence_metrics" r in
  let d := get "metadata" r in
  is_enum ["LOW"; "MEDIUM"; "HIGH"] (fld "risk_level" s) &&
  is_int_in 0 100 (fld "risk_score" s) &&
  is_str (fld "primary_concern" s) &&
  is_enum ["RELIABLE"; "QUESTIONABLE"] (fld "credibility_rating" s) &&
  is_list_of tactic_ok (get "detected_tactics" r) &&
  is_list_of bias_ok (get "cognitive_biases" r) &&
  is_list_of flag_ok (get "fact_check_flags" r) &&
  is_str (fld "why_convincing" e) && is_str (fld "target_audience" e) &&
  is_str (fld "psychological_appeal" e) &&
  is_list_of str_ok (fld "critical_questions" e) &&
  is_list_of str_ok (fld "verification_steps" e) &&
  is_str (fld "immediate_action" m) &&
  is_list_of str_ok (fld "further_research" m) &&
  is_enum ["AVOID_SHARING"; "SHARE_WITH_CONTEXT"] (fld "share_decision" m) &&
  is_str (fld "learning_opportunity" m) &&
  is_int_in 0 100 (fld "analysis_confidence" c) &&
  is_int_in 0 100 (fld "data_completeness" c) &&
  is_enum ["PARTIAL"; "FULL"; "NONE"] (fld "context_availability" c) &&
  is_str (fld "analysis_timestamp" d) && is_str (fld "model_used" d) &&
  is_nat_int (fld "content_length" d) &&
  is_enum ["url"; "text"] (fld "source_type" d).

(** Projections of a report used in the statements below. *)
Definition list_field (k : string) (r : json) : option (list json) :=
  match get k r with Some (JArr xs) => Some xs | _ => None end.

Example schema_demo : Report_schema_ok (getDemoAnalysis "" "t") = true.
Proof. reflexivity. Qed.

(** ** Lemmas about the score *)

Lemma riskScore_eq (c : string) :
  riskScore c = 30 + (if hasEmotionalWords c then 25 else 0)
                   + (if hasAllCaps c then 20 else 0)
                   + (if includes c "!" then 10 else 0)
                   - (if contentLength c <? 100 then 10 else 0).
Proof.
  unfold riskScore.
  destruct (hasEmotionalWords c), (hasAllCaps c), (includes c "!"),
           (contentLength c <? 100); lia.
Qed.

Lemma riskScore_bounds (c : string) : 20 <= riskScore c <= 85.
Proof.
  rewrite riskScore_eq.
  destruct (hasEmotionalWords c), (hasAllCaps c), (includes c "!"),
           (contentLength c <? 100); lia.
Qed.

Lemma contentLength_nonneg (c : string) : 0 <= contentLength c.
Proof. unfold contentLength; lia. Qed.

(** ** Claims about [getDemoAnalysis] *)

(** C3: the raw score is 30, +25 on an emotional trigger word (case
    insensitive), +20 on a run of four capitals, +10 on a [!], -10 when the
    content is shorter than 100 characters; the reported [risk_score] is
    [min(raw, 95)], with no lower clamp. *)
Theorem risk_score_formula (c now : string) :
  riskScore c = 30 + (if test_alt_ci emotional_words c then 25 else 0)
                   + (if test_caps4 c then 20 else 0)
                   + (if includes c "!" then 10 else 0)
                   - (if Z.of_nat (String.length c) <? 100 then 10 else 0)
  /\ getp ["analysis_summary"; "risk_score"] (getDemoAnalysis c now)
     = Some (JNum (Z.min (riskScore c) 95)).
Proof.
  split.
  - apply riskScore_eq.
  - reflexivity.
Qed.

(** C4: [risk_level] is HIGH above 70, MEDIUM above 50, LOW otherwise;
    [credibility_rating] is QUESTIONABLE exactly above 50; so a raw score in
    (50, 70] gives MEDIUM with QUESTIONABLE. *)
Theorem risk_level_credibility (c now : string) :
  getp ["analysis_summary"; "risk_level"] (getDemoAnalysis c now)
    = Some (JStr (if riskScore c >? 70 then "HIGH"
                  else if riskScore c >? 50 then "MEDIUM" else "LOW"))
  /\ getp ["analysis_summary"; "credibility_rating"] (getDemoAnalysis c now)
    = Some (JStr (if riskScore c >? 50 then "QUESTIONABLE" else "RELIABLE"))
  /\ (50 < riskScore c <= 70 ->
      getp ["analysis_summary"; "risk_level"] (getDemoAnalysis c now) = Some (JStr "MEDIUM")
      /\ getp ["analysis_summary"; "credibility_rating"] (getDemoAnalysis c now)
         = Some (JStr "QUESTIONABLE")).
Proof.
  cbn -[riskScore getDemoAnalysis].
  unfold getDemoAnalysis, riskLevel, credibility; cbn -[riskScore].
  destruct (Z.gtb_spec (riskScore c) 70), (Z.gtb_spec (riskScore c) 50);
    repeat split; try reflexivity; intros; lia.
Qed.

Lemma risk_level_credibility_witness :
  riskScore "secret!" = 55 /\
  getp ["analysis_summary"; "risk_level"] (getDemoAnalysis "secret!" "t") = Some (JStr "MEDIUM")
  /\ getp ["analysis_summary"; "credibility_rating"] (getDemoAnalysis "secret!" "t")
     = Some (JStr "QUESTIONABLE").
Proof.
  split; [reflexivity|].
  apply (proj2 (proj2 (risk_level_credibility "secret!" "t"))).
  assert (H : riskScore "secret!" = 55) by reflexivity; rewrite H; lia.
Defined.

(** C7: apart from [metadata.analysis_timestamp], two calls on the same
    content give the same report: same score, level, rating and lists. *)
Theorem demo_deterministic (c t1 t2 : string) :
  strip_timestamp (getDemoAnalysis c t1) = strip_timestamp (getDemoAnalysis c t2)
  /\ getp ["analysis_summary"; "risk_score"] (getDemoAnalysis c t1)
     = getp ["analysis_summary"; "risk_score"] (getDemoAnalysis c t2)
  /\ getp ["analysis_summary"; "risk_level"] (getDemoAnalysis c t1)
     = getp ["analysis_summary"; "risk_level"] (getDemoAnalysis c t2)
  /\ getp ["analysis_summary"; "credibility_rating"] (getDemoAnalysis c t1)
     = getp ["analysis_summary"; "credibility_rating"] (getDemoAnalysis c t2)
  /\ Forall (fun p => getp p (getDemoAnalysis c t1) = getp p (getDemoAnalysis c t2))
       [["detected_tactics"]; ["cognitive_biases"]; ["fact_check_flags"];
        ["educational_insights"; "critical_questions"];
        ["educational_insights"; "verification_steps"];
        ["recommendations"; "further_research"]].
Proof.
  repeat split; repeat constructor.
Qed.

(** C8: on a trigger-word match [detected_tactics] is exactly the two
    entries Emotional Manipulation and Urgency Creation (every field fixed
    except the first example, which is the first 100 characters of the
    content followed by "...") and [fact_check_flags] is exactly one fixed
    flag; otherwise [detected_tactics] is exactly the single "Demo Analysis"
    entry and [fact_check_flags] is empty; [cognitive_biases] is exactly
    the fixed FOMO and Authority Bias entries, the same for every input and
    time. *)
Theorem demo_tactics_shape (c now : string) :
  let r := getDemoAnalysis c now in
  (if hasEmotionalWords c then
     list_field "detected_tactics" r
       = Some [JObj [("tactic_name", JStr "Emotional Manipulation");
                     ("description", JStr "Uses strong emotional language to bypass critical thinking");
                     ("example_from_content", JStr (substring 0 100 c ++ "..."));
                     ("manipulation_type", JStr "EMOTIONAL")];
               JObj [("tactic_name", JStr "Urgency Creation");
                     ("description", JStr "Creates artificial time pressure to prompt immediate action");
                     ("example_from_content", JStr "Act fast");
                     ("manipulation_type", JStr "SOCIAL")]]
     /\ list_field "fact_check_flags" r
       = Some [JObj [("claim", JStr "Scientists are 'shocked' by this discovery");
                     ("flag_reason", JStr "Vague, unsupported claims about scientific consensus");
                     ("verification_suggestion", JStr "Look for peer-reviewed studies and specific researcher names")]]
     /\ option_map (fun ts => hd_error (map (get "example_from_content") ts))
          (list_field "detected_tactics" r)
        = Some (Some (Some (JStr (substring 0 100 c ++ "..."))))
   else
     list_field "detected_tactics" r
       = Some [JObj [("tactic_name", JStr "Demo Analysis");
                     ("description", JStr "This is a demonstration of our analysis capabilities");
                     ("example_from_content", JStr "Sample content analysis");
                     ("manipulation_type", JStr "LOGICAL")]]
     /\ list_field "fact_check_flags" r = Some [])
  /\ list_field "cognitive_biases" r
     = Some [JObj [("bias_name", JStr "Fear of Missing Out (FOMO)");
                   ("explanation", JStr "The tendency to feel anxiety about missing beneficial opportunities");
                   ("how_its_exploited", JStr "Content suggests exclusive or time-limited information");
                   ("resistance_tip", JStr "Ask yourself: What's the real urgency? Can I verify this independently?")];
             JObj [("bias_name", JStr "Authority Bias");
                   ("explanation", JStr "Tendency to trust information from perceived authority figures");
                   ("how_its_exploited", JStr "References to 'scientists' or 'experts' without specific credentials");
                   ("resistance_tip", JStr "Check the actual credentials and affiliations of cited experts")]]
  /\ (forall c' now', list_field "cognitive_biases" (getDemoAnalysis c' now')
                      = list_field "cognitive_biases" r).
Proof.
  cbn zeta. unfold getDemoAnalysis.
  destruct (hasEmotionalWords c); repeat split; intros; reflexivity.
Qed.

(** C9: every synthesized report passes the Report schema check: the four
    required groups are present and every list field is a list. *)
Theorem demo_schema_complete (c now : string) :
  Report_schema_ok (getDemoAnalysis c now) = true.
Proof.
  pose proof (riskScore_bounds c) as Hb.
  assert (H1 : (0 <=? Z.min (riskScore c) 95) = true) by (apply Z.leb_le; lia).
  assert (H2 : (Z.min (riskScore c) 95 <=? 100) = true) by (apply Z.leb_le; lia).
  assert (H3 : (0 <=? contentLength c) = true)
    by (apply Z.leb_le; apply contentLength_nonneg).
  unfold getDemoAnalysis, riskLevel, credibility; cbn -[riskScore contentLength].
  destruct (hasEmotionalWords c), (hasURL c), (riskScore c >? 70), (riskScore c >? 50);
    unfold Report_schema_ok; cbn -[riskScore contentLength Z.min Z.leb]; rewrite ?H1, ?H2, ?H3; reflexivity.
Qed.

(** C10: the reported [risk_score] always lies in [20, 95]. *)
Theorem demo_risk_score_range (c now : string) :
  exists n, getp ["analysis_summary"; "risk_score"] (getDemoAnalysis c now) = Some (JNum n)
            /\ 20 <= n <= 95.
Proof.
  exists (Z.min (riskScore c) 95); split; [reflexivity|].
  pose proof (riskScore_bounds c); lia.
Qed.

(** ** Claims about [checkBackendConnection] *)

(** C2: candidates are probed in list order; the first whose probe answers
    with [response.ok] is selected and nothing after it is probed; when
    none answers, nothing is selected and the status reads offline. *)
Theorem resolver_first_ok (fetch_get : string -> fetch_result) :
  (forall pre url post st,
     Forall (fun u => response_ok (fetch_get (u ++ "/")) = false) pre ->
     response_ok (fetch_get (url ++ "/")) = true ->
     checkBackendConnection fetch_get (pre ++ url :: post) st
     = (map (fun u => u ++ "/") (pre ++ [url]),
        {| activeBackendUrl := Some url; statusText := "Connected to backend" |}))
  /\ (forall urls st,
        Forall (fun u => response_ok (fetch_get (u ++ "/")) = false) urls ->
        activeBackendUrl st = None ->
        checkBackendConnection fetch_get urls st
        = (map (fun u => u ++ "/") urls,
           {| activeBackendUrl := None;
              statusText := "Backend offline - Demo mode only" |})).
Proof.
  split.
  - intros pre url post st Hpre Hurl.
    assert (Hloop : probe_loop fetch_get (pre ++ url :: post)
                    = (map (fun u => u ++ "/") (pre ++ [url]), Some url)).
    { induction Hpre as [|u pre Hu Hpre IH]; cbn.
      - unfold response_ok in Hurl.
        destruct (fetch_get (url ++ "/")) as [|[] ?]; try discriminate; reflexivity.
      - unfold response_ok in Hu.
        destruct (fetch_get (u ++ "/")) as [|[] ?]; try discriminate; rewrite IH; reflexivity. }
    unfold checkBackendConnection; rewrite Hloop; reflexivity.
  - intros urls st Hall Hst.
    assert (Hloop : probe_loop fetch_get urls = (map (fun u => u ++ "/") urls, None)).
    { induction Hall as [|u urls Hu Hall IH]; cbn; [reflexivity|].
      unfold response_ok in Hu.
      destruct (fetch_get (u ++ "/")) as [|[] ?]; try discriminate; rewrite IH; reflexivity. }
    unfold checkBackendConnection; rewrite Hloop, Hst; reflexivity.
Qed.

(** Probes: the render URL fails, the railway URL answers, so does localhost. *)
Definition probe_example (u : string) : fetch_result :=
  if String.eqb u "https://your-render-app.onrender.com/" then FetchThrows
  else if String.eqb u "https://your-railway-app.up.railway.app/" then FetchResponse true None
  else FetchResponse true None.

Lemma resolver_first_ok_witness :
  checkBackendConnection probe_example backendUrls initial_state
  = (["https://your-render-app.onrender.com/"; "https://your-railway-app.up.railway.app/"],
     {| activeBackendUrl := Some "https://your-railway-app.up.railway.app";
        statusText := "Connected to backend" |})
  /\ checkBackendConnection (fun _ => FetchResponse false None) backendUrls initial_state
     = (map (fun u => u ++ "/") backendUrls,
        {| activeBackendUrl := None; statusText := "Backend offline - Demo mode only" |}).
Proof.
  split.
  - apply (proj1 (resolver_first_ok probe_example)
             ["https://your-render-app.onrender.com"]
             "https://your-railway-app.up.railway.app"
             ["http://localhost:8000";
              "https://mindful-compass-api-1082426526892.us-central1.run.app"]
             initial_state).
    + repeat constructor.
    + reflexivity.
  - apply (proj2 (resolver_first_ok (fun _ => FetchResponse false None))).
    + repeat constructor.
    + reflexivity.
Defined.

(** ** Claims about [analyzeContent] *)

Definition local_url : string := "http://localhost:8000".

Lemma analyze_live_path (fetch_post : string -> string -> fetch_result)
  (displayReport : json -> option string) (now url value : string) :
  url <> "" -> trim value <> "" ->
  analyzeContent fetch_post displayReport now (Some url) value
  = let target := url ++ "/analyze" in
    ([(target, trim value)],
     match fetch_post target (trim value) with
     | FetchResponse true (Some j) => render displayReport j None
     | _ => render displayReport (getDemoAnalysis (trim value) now) (Some demo_notice)
     end).
Proof.
  intros Hu Hv. unfold analyzeContent.
  destruct (String.eqb_spec (trim value) "") as [E|_]; [contradiction|].
  destruct (String.eqb_spec url "") as [E|_]; [contradiction|].
  destruct (fetch_post (url ++ "/analyze") (trim value)) as [|[] [j|]]; reflexivity.
Qed.

(** C1 fails: a 2xx response whose body is not JSON makes [response.json()]
    reject inside the inner [try], which falls back to the demo report
    instead of surfacing an error. *)
Lemma malformed_success_counterexample :
  analyzeContent (fun _ _ => FetchResponse true None) (fun _ => None) "t"
                 (Some local_url) "hello"
  = ([(local_url ++ "/analyze", "hello")],
     Rendered (getDemoAnalysis "hello" "t") (Some demo_notice)).
Proof. reflexivity. Qed.

(** C1, amended: a 2xx body that does not parse as JSON is replaced by the
    demo report (with the "backend temporarily unavailable" notice); a 2xx
    body that parses is handed to [displayReport] unchecked, and an error
    reaches the user only if rendering it throws. *)
Theorem malformed_success_handling (fetch_post : string -> string -> fetch_result)
  (displayReport : json -> option string) (now url value : string) :
  url <> "" -> trim value <> "" ->
  (fetch_post (url ++ "/analyze") (trim value) = FetchResponse true None ->
   analyzeContent fetch_post displayReport now (Some url) value
   = ([(url ++ "/analyze", trim value)],
      render displayReport (getDemoAnalysis (trim value) now) (Some demo_notice)))
  /\ (forall j, fetch_post (url ++ "/analyze") (trim value) = FetchResponse true (Some j) ->
      analyzeContent fetch_post displayReport now (Some url) value
      = ([(url ++ "/analyze", trim value)], render displayReport j None)).
Proof.
  intros Hu Hv. rewrite (analyze_live_path _ _ _ _ _ Hu Hv). cbn zeta.
  split; [intros E | intros j E]; rewrite E; reflexivity.
Qed.

Lemma malformed_success_handling_witness :
  analyzeContent (fun _ _ => FetchResponse true None) (fun _ => None) "t"
                 (Some local_url) "hello"
  = ([(local_url ++ "/analyze", trim "hello")],
     render (fun _ => None) (getDemoAnalysis (trim "hello") "t") (Some demo_notice))
  /\ analyzeContent (fun _ _ => FetchResponse true (Some JNull)) (fun _ => Some "x") "t"
                    (Some local_url) "hello"
     = ([(local_url ++ "/analyze", trim "hello")], render (fun _ => Some "x") JNull None).
Proof.
  split.
  - apply (proj1 (malformed_success_handling (fun _ _ => FetchResponse true None)
                    (fun _ => None) "t" local_url "hello" ltac:(discriminate)
                    ltac:(vm_compute; discriminate))).
    reflexivity.
  - apply (proj2 (malformed_success_handling (fun _ _ => FetchResponse true (Some JNull))
                    (fun _ => Some "x") "t" local_url "hello" ltac:(discriminate)
                    ltac:(vm_compute; discriminate))).
    reflexivity.
Defined.




(** C6: input that is empty after trimming issues no request and ends in
    the validation message, whatever the backend state. *)
Theorem empty_input_validation (fetch_post : string -> string -> fetch_result)
  (displayReport : json -> option string) (now : string) (active : option string)
  (value : string) :
  trim value = "" ->
  analyzeContent fetch_post displayReport now active value
  = ([], ValidationError "Please enter some content to analyze").
Proof.
  intros H. unfold analyzeContent. rewrite H. reflexivity.
Qed.

Lemma empty_input_validation_witness :
  trim "  " = "" /\
  analyzeContent (fun _ _ => FetchResponse true (Some JNull)) (fun _ => None) "t"
                 (Some local_url) "  "
  = ([], ValidationError "Please enter some content to analyze").
Proof.
  split; [reflexivity|].
  apply (empty_input_validation (fun _ _ => FetchResponse true (Some JNull))
           (fun _ => None) "t" (Some local_url) "  ").
  reflexivity.
Defined.

(** * Further properties of the front end *)

(** ** Rendering: inversion lemmas for the schema checker *)

Lemma get_some_obj (k : string) (o : json) (x : json) :
  get k o = Some x -> exists kvs, o = JObj kvs.
Proof. destruct o; cbn; try discriminate. eauto. Qed.

Lemma fld_inv (k : string) (o : option json) (x : json) :
  fld k o = Some x -> exists kvs, o = Some (JObj kvs) /\ get k (JObj kvs) = Some x.
Proof.
  destruct o as [o|]; cbn; [|discriminate]. intros H.
  destruct (get_some_obj _ _ _ H) as [kvs ->]. eauto.
Qed.

Lemma is_str_inv (o : option json) : is_str o = true -> exists s, o = Some (JStr s).
Proof. destruct o as [[]|]; cbn; try discriminate; eauto. Qed.

Lemma is_enum_inv (vals : list string) (o : option json) :
  is_enum vals o = true -> exists s, o = Some (JStr s).
Proof. destruct o as [[]|]; cbn; try discriminate; eauto. Qed.

Lemma is_int_in_inv (lo hi : Z) (o : option json) :
  is_int_in lo hi o = true -> exists n, o = Some (JNum n).
Proof. destruct o as [[]|]; cbn; try discriminate; eauto. Qed.

Lemma is_nat_int_inv (o : option json) : is_nat_int o = true -> exists n, o = Some (JNum n).
Proof. destruct o as [[]|]; cbn; try discriminate; eauto. Qed.

Lemma is_list_of_inv (ok : json -> bool) (o : option json) :
  is_list_of ok o = true -> exists xs, o = Some (JArr xs) /\ forallb ok xs = true.
Proof. destruct o as [[]|]; cbn; try discriminate; eauto. Qed.

Lemma mapM_some {A B : Type} (f : A -> option B) (xs : list A) :
  (forall x, In x xs -> exists y, f x = Some y) -> exists ys, mapM f xs = Some ys.
Proof.
  induction xs as [|x xs IH]; intros Hf; cbn; [eauto|].
  destruct (Hf x (or_introl eq_refl)) as [y ->]. cbn.
  destruct IH as [ys ->]; [intros; apply Hf; right; assumption|]. cbn; eauto.
Qed.

Lemma guarded_list_arr (g : string -> bool) (xs : list json) :
  guarded_list g (Some (JArr xs))
  = Some (if 0 <? Z.of_nat (List.length xs) then Some xs else None).
Proof. unfold guarded_list; cbn. destruct (0 <? _); reflexivity. Qed.

Lemma items_ok (g : string -> bool) (xs : list json) :
  forallb str_ok xs = true -> exists l, items g (Some (JArr xs)) = Some l.
Proof.
  intros H. unfold items. rewrite guarded_list_arr. cbn.
  destruct (0 <? _); cbn; [|eauto].
  apply mapM_some. intros x Hx. rewrite forallb_forall in H.
  specialize (H x Hx). destruct x; cbn in H |- *; try discriminate; eauto.
Qed.

Lemma cards_ok (g : string -> bool) (card : json -> option string)
  (ok : json -> bool) (xs : list json) :
  (forall x, ok x = true -> exists c, card x = Some c) -> forallb ok xs = true ->
  exists cs, cards g card (Some (JArr xs)) = Some cs.
Proof.
  intros Hc H. unfold cards. rewrite guarded_list_arr. cbn.
  destruct (0 <? _); cbn; [|eauto].
  destruct (mapM_some card xs) as [cs ->].
  - intros x Hx. rewrite forallb_forall in H. apply Hc, H, Hx.
  - cbn; eauto.
Qed.

(** Splits the schema facts into equations on [get]. *)
Ltac inv_schema :=
  repeat match goal with
  | H : _ && _ = true |- _ => apply andb_prop in H; destruct H
  | H : is_str (fld _ _) = true |- _ =>
      apply is_str_inv in H; destruct H as [? H]; apply fld_inv in H;
      destruct H as [? [? ?]]
  | H : is_enum _ (fld _ _) = true |- _ =>
      apply is_enum_inv in H; destruct H as [? H]; apply fld_inv in H;
      destruct H as [? [? ?]]
  | H : is_int_in _ _ (fld _ _) = true |- _ =>
      apply is_int_in_inv in H; destruct H as [? H]; apply fld_inv in H;
      destruct H as [? [? ?]]
  | H : is_nat_int (fld _ _) = true |- _ =>
      apply is_nat_int_inv in H; destruct H as [? H]; apply fld_inv in H;
      destruct H as [? [? ?]]
  | H : is_list_of _ (fld _ _) = true |- _ =>
      apply is_list_of_inv in H; destruct H as [? [H ?]]; apply fld_inv in H;
      destruct H as [? [? ?]]
  | H : is_list_of _ (get _ _) = true |- _ =>
      apply is_list_of_inv in H; destruct H as [? [? ?]]
  | H : is_str (get _ _) = true |- _ => apply is_str_inv in H; destruct H as [? H]
  | H : is_enum _ (get _ _) = true |- _ => apply is_enum_inv in H; destruct H as [? H]
  | H1 : ?x = Some ?a, H2 : ?x = Some ?b |- _ =>
      rewrite H1 in H2; injection H2 as H2; subst
  end.


Lemma js_or_obj (kvs : list (string * json)) (d : jsval) :
  js_or (Some (JObj kvs)) d = Some (JObj kvs).
Proof. reflexivity. Qed.

Lemma safe_text_JStr (s : string) :
  safe_text (Some (JStr s)) = Some (if String.eqb s "" then "Not provided" else s).
Proof. unfold safe_text, js_or; cbn. destruct (String.eqb s ""); reflexivity. Qed.

Lemma text_content_JStr (s : string) : text_content (Some (JStr s)) = Some s.
Proof. reflexivity. Qed.

Lemma text_content_or_JStr (s d : string) :
  text_content (js_or (Some (JStr s)) (Some (JStr d)))
  = Some (if String.eqb s "" then d else s).
Proof. unfold js_or; cbn. destruct (String.eqb s ""); reflexivity. Qed.

Lemma css_class_JStr (s : string) :
  css_class (Some (JStr s))
  = Some (if String.eqb s "" then "" else replace_first_underscore (js_lower s)).
Proof. unfold css_class; cbn. destruct (String.eqb s ""); reflexivity. Qed.

Lemma js_to_string_JNum (n : Z) : js_to_string (Some (JNum n)) = Some (num_to_string n).
Proof. reflexivity. Qed.

Lemma js_to_string_or_JNum (n d : Z) :
  js_to_string (js_or (Some (JNum n)) (Some (JNum d)))
  = Some (num_to_string (if n =? 0 then d else n)).
Proof. unfold js_or; cbn. destruct (n =? 0); reflexivity. Qed.

(** Evaluation without case splits, by the equations above. *)
Ltac run_render_eq :=
  repeat first
    [ progress cbv beta iota zeta delta [obind getprop default_to empty_obj unknown]
    | match goal with H : ?l = _ |- context [?l] => rewrite H end
    | progress rewrite ?js_or_obj, ?safe_text_JStr, ?text_content_or_JStr,
        ?text_content_JStr, ?css_class_JStr, ?js_to_string_or_JNum, ?js_to_string_JNum ].

Lemma tactic_card_ok (x : json) : tactic_ok x = true -> exists c, tactic_card x = Some c.
Proof.
  intros H. unfold tactic_ok, has_strs in H. cbn [forallb] in H.
  rewrite andb_true_r in H. inv_schema.
  destruct (get_some_obj _ _ _ H) as [kvs ->].
  unfold tactic_card. run_render_eq; eauto.
Qed.

Lemma bias_card_ok (x : json) : bias_ok x = true -> exists c, bias_card x = Some c.
Proof.
  intros H. unfold bias_ok, has_strs in H. cbn [forallb] in H.
  rewrite andb_true_r in H. inv_schema.
  destruct (get_some_obj _ _ _ H) as [kvs ->].
  unfold bias_card. run_render_eq; eauto.
Qed.

Lemma flag_card_ok (x : json) : flag_ok x = true -> exists c, flag_card x = Some c.
Proof.
  intros H. unfold flag_ok, has_strs in H. cbn [forallb] in H.
  rewrite andb_true_r in H. inv_schema.
  destruct (get_some_obj _ _ _ H) as [kvs ->].
  unfold flag_card. run_render_eq; eauto.
Qed.

Ltac prepare_lists g :=
  repeat match goal with
  | H : forallb tactic_ok ?xs = true |- _ =>
      destruct (cards_ok g tactic_card tactic_ok xs tactic_card_ok H) as [? ?]; clear H
  | H : forallb bias_ok ?xs = true |- _ =>
      destruct (cards_ok g bias_card bias_ok xs bias_card_ok H) as [? ?]; clear H
  | H : forallb flag_ok ?xs = true |- _ =>
      destruct (cards_ok g flag_card flag_ok xs flag_card_ok H) as [? ?]; clear H
  | H : forallb str_ok ?xs = true |- _ =>
      destruct (items_ok g xs H) as [? ?]; clear H
  end.

(** A report that passes the schema check of the spec renders without
    throwing, in both versions of [displayReport]. *)
Theorem schema_ok_renders (g : string -> bool) (enhanced : bool) (r : json) :
  Report_schema_ok r = true -> exists v, display_report g enhanced r = Some v.
Proof.
  intros H. unfold Report_schema_ok in H. inv_schema.
  match goal with H : get _ r = Some _ |- _ => destruct (get_some_obj _ _ _ H) as [rk ->] end.
  prepare_lists g.
  unfold display_report, render_summary, render_insights, render_recs, render_metrics.
  destruct enhanced; run_render_eq; eauto.
Qed.

Lemma schema_ok_renders_witness :
  exists v, display_report (fun _ => false) true (getDemoAnalysis "Act now!" "t") = Some v.
Proof.
  apply (schema_ok_renders (fun _ => false) true (getDemoAnalysis "Act now!" "t")).
  vm_compute. reflexivity.
Defined.

(** ** Rendering the demo report *)

Lemma append_dots_nonempty (x : string) : x ++ "..." <> "".
Proof. destruct x; discriminate. Qed.

Lemma demo_render (g : string -> bool) (c now : string) :
  exists v,
    displayReport g (getDemoAnalysis c now) = Some v
    /\ tacticCards v
       = Some (if hasEmotionalWords c then
                 [tactic_html "Emotional Manipulation" "emotional" "EMOTIONAL"
                    "Uses strong emotional language to bypass critical thinking"
                    (substring 0 100 c ++ "...");
                  tactic_html "Urgency Creation" "social" "SOCIAL"
                    "Creates artificial time pressure to prompt immediate action"
                    "Act fast"]
               else
                 [tactic_html "Demo Analysis" "logical" "LOGICAL"
                    "This is a demonstration of our analysis capabilities"
                    "Sample content analysis"])
    /\ factCheckHidden v = negb (hasEmotionalWords c)
    /\ List.length (flagCards v) = (if hasEmotionalWords c then 1%nat else 0%nat)
    /\ shareDecisionClass (recsView v)
       = (if riskScore c >? 70 then "share-decision avoid-sharing"
          else "share-decision share-with_context")
    /\ riskLevelText (summaryView v) = riskLevel c
    /\ credibilityText (summaryView v) = credibility c.
Proof.
  unfold displayReport, display_report, render_summary, render_insights, render_recs,
    render_metrics, getDemoAnalysis, riskLevel, credibility, emotional_tactics,
    demo_tactics, emotional_flags, cognitive_biases_list, tactic, strs.
  pose proof (append_dots_nonempty (substring 0 100 c)) as Hne.
  remember (substring 0 100 c ++ "...") as ex eqn:Hex.
  destruct ex as [|a rest]; [contradiction|]. clear Hex Hne.
  remember (Z.min (riskScore c) 95) as rs eqn:Hrs. clear Hrs.
  remember (contentLength c) as len eqn:Hlen. clear Hlen.
  destruct (hasEmotionalWords c), (hasURL c), (riskScore c >? 70), (riskScore c >? 50);
    cbv; eexists; repeat split.
Qed.

Lemma render_demo_ok (g : string -> bool) (msg c now : string) (n : option string) :
  render (displayReport_throws g msg) (getDemoAnalysis c now) n
  = Rendered (getDemoAnalysis c now) n.
Proof.
  destruct (demo_render g c now) as [v [Hv _]].
  unfold render, displayReport_throws. rewrite Hv. reflexivity.
Qed.

(** With part_000's [displayReport] as renderer, whenever the demo report
    is used (no backend selected, or the live call rejected, answered with
    a non-2xx status, or returned a body that is not JSON) the submission
    ends with the demo report rendered, never with "Analysis failed". *)
Theorem demo_paths_always_render (g : string -> bool) (msg : string)
  (fetch_post : string -> string -> fetch_result) (now value : string) :
  trim value <> "" ->
  analyzeContent fetch_post (displayReport_throws g msg) now None value
  = ([], Rendered (getDemoAnalysis (trim value) now) (Some offline_notice))
  /\ (forall url, url <> "" ->
      response_ok (fetch_post (url ++ "/analyze") (trim value)) = false
      \/ fetch_post (url ++ "/analyze") (trim value) = FetchResponse true None ->
      analyzeContent fetch_post (displayReport_throws g msg) now (Some url) value
      = ([(url ++ "/analyze", trim value)],
         Rendered (getDemoAnalysis (trim value) now) (Some demo_notice))).
Proof.
  intros Hv. split.
  - unfold analyzeContent.
    destruct (String.eqb_spec (trim value) "") as [E|_]; [contradiction|].
    apply (f_equal (fun o => ([], o))). apply render_demo_ok.
  - intros url Hu Hf. rewrite (analyze_live_path _ _ _ _ _ Hu Hv). cbn zeta.
    destruct Hf as [Hf | Hf].
    + destruct (fetch_post (url ++ "/analyze") (trim value)) as [|[] b];
        try discriminate; rewrite render_demo_ok; reflexivity.
    + rewrite Hf, render_demo_ok. reflexivity.
Qed.

Lemma demo_paths_always_render_witness :
  analyzeContent (fun _ _ => FetchThrows) (displayReport_throws (fun _ => false) "e")
                 "t" None "hi"
  = ([], Rendered (getDemoAnalysis (trim "hi") "t") (Some offline_notice)).
Proof.
  apply (proj1 (demo_paths_always_render (fun _ => false) "e" (fun _ _ => FetchThrows)
                  "t" "hi" ltac:(vm_compute; discriminate))).
Defined.

(** The rendered demo report: with a trigger word, two tactic cards and the
    fact-check section shown with one card; without, the single "Demo
    Analysis" card and the fact-check section hidden. *)
Theorem demo_render_sections (g : string -> bool) (c now : string) :
  exists v,
    displayReport g (getDemoAnalysis c now) = Some v
    /\ option_map (@List.length string) (tacticCards v)
       = Some (if hasEmotionalWords c then 2%nat else 1%nat)
    /\ factCheckHidden v = negb (hasEmotionalWords c)
    /\ List.length (flagCards v) = (if hasEmotionalWords c then 1%nat else 0%nat).
Proof.
  destruct (demo_render g c now) as [v [Hv [Ht [Hh [Hf _]]]]].
  exists v. rewrite Ht. repeat split; auto.
  destruct (hasEmotionalWords c); reflexivity.
Qed.

(** The share-decision badge class replaces only the first underscore:
    a demo report scored 70 or less gets "share-with_context". *)
Theorem demo_share_decision_class (g : string -> bool) (c now : string) :
  exists v,
    displayReport g (getDemoAnalysis c now) = Some v
    /\ shareDecisionClass (recsView v)
       = (if riskScore c >? 70 then "share-decision avoid-sharing"
          else "share-decision share-with_context").
Proof.
  destruct (demo_render g c now) as [v [Hv [_ [_ [_ [Hs _]]]]]]. eauto.
Qed.

(** ** Substring search lemmas *)

Lemma str_append_assoc (a b d : string) : (a ++ b) ++ d = a ++ (b ++ d).
Proof. induction a as [|x a IH]; cbn; [reflexivity|]. rewrite IH. reflexivity. Qed.

Lemma prefix_app (n q : string) : prefix n (n ++ q) = true.
Proof.
  induction n as [|x n IH]; [destruct q; reflexivity|].
  cbn. destruct (ascii_dec x x); [exact IH|contradiction].
Qed.

Lemma includes_prefix (n q : string) : includes (n ++ q) n = true.
Proof.
  assert (E : forall s, includes s n = (prefix n s || match s with
                                                  | EmptyString => false
                                                  | String _ rest => includes rest n
                                                  end)%bool) by (destruct s; reflexivity).
  rewrite E, prefix_app. reflexivity.
Qed.

Lemma includes_app_r (t s n : string) : includes s n = true -> includes (t ++ s) n = true.
Proof.
  intros H. induction t as [|x t IH]; cbn; [exact H|].
  rewrite IH. apply orb_true_r.
Qed.

Lemma includes_tactic_example (h1 h2 h3 h4 x : string) :
  includes (tactic_html h1 h2 h3 h4 (x ++ "...")) x = true.
Proof.
  unfold tactic_html.
  repeat match goal with
         | |- includes ((?y ++ "...") ++ _) ?y = true => fail 1
         | |- includes (_ ++ _) _ = true => apply includes_app_r
         end.
  rewrite str_append_assoc. apply includes_prefix.
Qed.

(** The demo report puts the first 100 characters of the user's text into
    the first tactic card's HTML verbatim: [innerHTML] receives the input
    without any escaping. *)
Theorem demo_card_embeds_raw_input (g : string -> bool) (c now : string) :
  hasEmotionalWords c = true ->
  exists v card rest,
    displayReport g (getDemoAnalysis c now) = Some v
    /\ tacticCards v = Some (card :: rest)
    /\ includes card (substring 0 100 c) = true.
Proof.
  intros He.
  destruct (demo_render g c now) as [v [Hv [Ht _]]].
  rewrite He in Ht. do 3 eexists. split; [exact Hv|]. split; [exact Ht|].
  apply includes_tactic_example.
Qed.

Lemma demo_card_embeds_raw_input_witness :
  hasEmotionalWords "<img src=x onerror=alert(1)> secret" = true
  /\ exists v card rest,
    displayReport (fun _ => false) (getDemoAnalysis "<img src=x onerror=alert(1)> secret" "t")
      = Some v
    /\ tacticCards v = Some (card :: rest)
    /\ includes card (substring 0 100 "<img src=x onerror=alert(1)> secret") = true.
Proof.
  split; [reflexivity|].
  apply (demo_card_embeds_raw_input (fun _ => false) "<img src=x onerror=alert(1)> secret" "t").
  reflexivity.
Defined.

(** ** Rendering edge cases *)

Lemma display_report_null (g : string -> bool) (enhanced : bool) :
  display_report g enhanced JNull = None.
Proof. reflexivity. Qed.

(** part_000: a live backend that answers 2xx with the JSON body [null] is
    not caught by the inner fallback; [displayReport(null)] throws on
    [data.analysis_summary] and the call ends with "Analysis failed: ..."
    and no report. *)
Theorem live_null_body_error (g : string -> bool) (msg : string)
  (fetch_post : string -> string -> fetch_result) (now url value : string) :
  url <> "" -> trim value <> "" ->
  fetch_post (url ++ "/analyze") (trim value) = FetchResponse true (Some JNull) ->
  analyzeContent fetch_post (displayReport_throws g msg) now (Some url) value
  = ([(url ++ "/analyze", trim value)], Failed ("Analysis failed: " ++ msg) None).
Proof.
  intros Hu Hv Hf. unfold analyzeContent. cbv zeta.
  rewrite (proj2 (String.eqb_neq _ _) Hv), (proj2 (String.eqb_neq _ _) Hu), Hf.
  unfold render, displayReport_throws, displayReport. rewrite display_report_null.
  reflexivity.
Qed.

Lemma live_null_body_error_witness :
  analyzeContent (fun _ _ => FetchResponse true (Some JNull))
    (displayReport_throws (fun _ => false) "data is null") "t"
    (Some "http://localhost:8000") " hello "
  = ([("http://localhost:8000/analyze", "hello")],
     Failed "Analysis failed: data is null" None).
Proof.
  apply (live_null_body_error (fun _ => false) "data is null"
           (fun _ _ => FetchResponse true (Some JNull)) "t" "http://localhost:8000" " hello ").
  - discriminate.
  - vm_compute. discriminate.
  - reflexivity.
Defined.

(** part_000's [displayReport] on any non-null value that has none of the
    seven report groups (an object without them, a number, a string, ...)
    renders without throwing and shows only the placeholders: "UNKNOWN",
    "Not provided", "0%", the "no tactics/biases" paragraphs and a hidden
    fact-check section. *)
Theorem missing_groups_render_defaults (g : string -> bool) (data : json) :
  Forall (fun k => getprop (Some data) k = Some None)
    ["analysis_summary"; "detected_tactics"; "cognitive_biases"; "educational_insights";
     "fact_check_flags"; "recommendations"; "confidence_metrics"] ->
  displayReport g data = Some
    {| summaryView := {| riskLevelText := "UNKNOWN"; riskLevelClass := "risk-level ";
                         credibilityText := "UNKNOWN"; credibilityClass := "rating-value ";
                         primaryConcern := "Not provided" |};
       tacticCards := None; biasCards := None;
       insightsView := {| whyConvincing := "Not provided"; targetAudience := "Not provided";
                          psychologicalAppeal := "Not provided";
                          criticalQuestions := []; verificationSteps := [] |};
       flagCards := []; factCheckHidden := true;
       recsView := {| immediateAction := "Not provided"; shareDecisionClass := "share-decision ";
                      decisionBadge := "Not provided"; learningOpportunity := "Not provided";
                      furtherResearch := [] |};
       metricsView := {| analysisConfidenceText := "0%"; dataCompletenessText := "0%";
                         contextText := "UNKNOWN"; contextClass := "context-badge " |} |}.
Proof.
  intros H.
  repeat match goal with
         | H : Forall _ (_ :: _) |- _ => inversion_clear H as [|? ? ?H ?H]
         end.
  unfold displayReport, display_report, render_summary, render_insights, render_recs,
    render_metrics.
  repeat match goal with
         | H : getprop (Some data) _ = Some None |- _ => rewrite H; clear H
         end.
  reflexivity.
Qed.

Lemma missing_groups_render_defaults_witness :
  exists v, displayReport (fun _ => false) (JObj [("status", JStr "ok")]) = Some v.
Proof.
  eexists. apply (missing_groups_render_defaults (fun _ => false) (JObj [("status", JStr "ok")])).
  repeat constructor.
Defined.

Lemma legacy_no_summary_throws (g : string -> bool) (data : json) :
  get "analysis_summary" data = None -> displayReport_legacy g data = None.
Proof.
  intros H. destruct data as [| | | | |kvs]; try reflexivity.
  unfold displayReport_legacy, display_report, render_summary.
  change (getprop (Some (JObj kvs)) "analysis_summary")
    with (Some (get "analysis_summary" (JObj kvs))).
  rewrite H. reflexivity.
Qed.

(** script.js: a 2xx body without [analysis_summary] (including [null])
    makes [displayReport] throw on [summary.risk_level]; the handler shows
    the engine's TypeError message, after exactly one request. *)
Theorem legacy_missing_summary_error (g : string -> bool)
  (fetch_post : string -> string -> fetch_result) (fe je te value : string) (data : json) :
  trim value <> "" ->
  fetch_post (backendUrl ++ "/analyze") (trim value) = FetchResponse true (Some data) ->
  get "analysis_summary" data = None ->
  legacy_submit g fetch_post fe je te value
  = ([(backendUrl ++ "/analyze", trim value)], LegacyError te).
Proof.
  intros Hv Hf Hs. unfold legacy_submit. cbv zeta.
  rewrite (proj2 (String.eqb_neq _ _) Hv), Hf, (legacy_no_summary_throws g data Hs).
  reflexivity.
Qed.

Lemma legacy_missing_summary_error_witness :
  legacy_submit (fun _ => false)
    (fun _ _ => FetchResponse true (Some (JObj [("risk_level", JStr "LOW")])))
    "network" "syntax" "summary is undefined" "hello"
  = ([(backendUrl ++ "/analyze", "hello")], LegacyError "summary is undefined").
Proof.
  apply (legacy_missing_summary_error (fun _ => false)
           (fun _ _ => FetchResponse true (Some (JObj [("risk_level", JStr "LOW")])))
           "network" "syntax" "summary is undefined" "hello"
           (JObj [("risk_level", JStr "LOW")])).
  - vm_compute. discriminate.
  - reflexivity.
  - reflexivity.
Defined.

Lemma css_class_nonstring (v : json) :
  truthy (Some v) = true -> (forall s, v <> JStr s) -> css_class (Some v) = None.
Proof.
  intros Ht Hn. unfold css_class. rewrite Ht.
  destruct v; try reflexivity. exfalso. eapply Hn. reflexivity.
Qed.

(** Both versions of [displayReport] throw when [analysis_summary.risk_level]
    is truthy but not a string (a number, [true], an array or an object):
    [getRiskClass] calls [toLowerCase] on it. *)
Theorem nonstring_risk_level_throws (g : string -> bool) (enhanced : bool)
  (kvs skvs : list (string * json)) (rl : json) :
  get "analysis_summary" (JObj kvs) = Some (JObj skvs) ->
  get "risk_level" (JObj skvs) = Some rl ->
  truthy (Some rl) = true ->
  (forall s, rl <> JStr s) ->
  display_report g enhanced (JObj kvs) = None.
Proof.
  intros Hs Hr Ht Hn.
  unfold display_report, render_summary.
  change (getprop (Some (JObj kvs)) "analysis_summary")
    with (Some (get "analysis_summary" (JObj kvs))).
  rewrite Hs.
  assert (Hd : default_to enhanced empty_obj (Some (JObj skvs)) = Some (JObj skvs))
    by (destruct enhanced; reflexivity).
  cbv beta iota zeta delta [obind]. rewrite Hd.
  change (getprop (Some (JObj skvs)) "risk_level") with (Some (get "risk_level" (JObj skvs))).
  rewrite Hr, (css_class_nonstring rl Ht Hn).
  destruct (text_content _); reflexivity.
Qed.

Lemma nonstring_risk_level_throws_witness :
  displayReport (fun _ => false)
    (JObj [("analysis_summary", JObj [("risk_level", JNum 3)])]) = None.
Proof.
  apply (nonstring_risk_level_throws (fun _ => false) true
           [("analysis_summary", JObj [("risk_level", JNum 3)])] [("risk_level", JNum 3)] (JNum 3)).
  - reflexivity.
  - reflexivity.
  - reflexivity.
  - intros s. discriminate.
Defined.


(** ** Monotonicity of the demo risk score *)

Lemma str_append_nil_r (s : string) : s ++ "" = s.
Proof. induction s as [|a s IH]; cbn; [reflexivity|]. rewrite IH. reflexivity. Qed.

Lemma length_app_str (a b : string) :
  String.length (a ++ b) = (String.length a + String.length b)%nat.
Proof. induction a as [|x a IH]; cbn; [reflexivity|]. rewrite IH. reflexivity. Qed.

Lemma prefix_app_mono (n s d : string) : prefix n s = true -> prefix n (s ++ d) = true.
Proof.
  revert n. induction s as [|a s IH]; intros n H.
  - destruct n; [destruct d; reflexivity|discriminate].
  - destruct n as [|b n]; [reflexivity|].
    cbn in H |- *. destruct (ascii_dec b a); [exact (IH n H)|discriminate].
Qed.

Lemma includes_String (a : ascii) (s n : string) :
  includes (String a s) n = (prefix n (String a s) || includes s n)%bool.
Proof. reflexivity. Qed.

Lemma includes_app_mono (s n d : string) : includes s n = true -> includes (s ++ d) n = true.
Proof.
  induction s as [|a s IH]; intros H.
  - destruct n; [destruct d; reflexivity|cbn in H; discriminate].
  - change (String a s ++ d) with (String a (s ++ d)).
    rewrite includes_String in H |- *.
    apply orb_true_iff in H as [H|H]; apply orb_true_iff.
    + left. exact (prefix_app_mono n (String a s) d H).
    + right. exact (IH H).
Qed.

Lemma prefix_ci_app_mono (p s d : string) : prefix_ci p s = true -> prefix_ci p (s ++ d) = true.
Proof.
  revert s. induction p as [|a p IH]; intros s H; [reflexivity|].
  destruct s as [|b s]; [discriminate|].
  cbn in H |- *. apply andb_true_iff in H as [H1 H2].
  rewrite H1, (IH s H2). reflexivity.
Qed.

Lemma existsb_prefix_ci_mono (ws : list string) (s d : string) :
  existsb (fun w => prefix_ci w s) ws = true ->
  existsb (fun w => prefix_ci w (s ++ d)) ws = true.
Proof.
  intros H. apply existsb_exists in H as [w [Hin Hw]].
  apply existsb_exists. exists w. split; [exact Hin|]. exact (prefix_ci_app_mono w s d Hw).
Qed.

Lemma test_alt_ci_unfold (ws : list string) (s : string) :
  test_alt_ci ws s = (existsb (fun w => prefix_ci w s) ws ||
                      match s with
                      | EmptyString => false
                      | String _ rest => test_alt_ci ws rest
                      end)%bool.
Proof. destruct s; reflexivity. Qed.

Lemma test_alt_ci_app_mono (ws : list string) (s d : string) :
  test_alt_ci ws s = true -> test_alt_ci ws (s ++ d) = true.
Proof.
  induction s as [|a s IH]; intros H;
    rewrite test_alt_ci_unfold in H |- *;
    apply orb_true_iff in H as [H|H]; apply orb_true_iff.
  - left. exact (existsb_prefix_ci_mono ws "" d H).
  - discriminate.
  - left. exact (existsb_prefix_ci_mono ws (String a s) d H).
  - right. exact (IH H).
Qed.

Lemma test_alt_ci_app_l (ws : list string) (t s : string) :
  test_alt_ci ws s = true -> test_alt_ci ws (t ++ s) = true.
Proof.
  intros H. induction t as [|a t IH]; [exact H|].
  change (String a t ++ s) with (String a (t ++ s)).
  rewrite test_alt_ci_unfold, IH. apply orb_true_r.
Qed.

Lemma upper_prefix_app_mono (n : nat) (s d : string) :
  upper_prefix n s = true -> upper_prefix n (s ++ d) = true.
Proof.
  revert s. induction n as [|n IH]; intros s H; [reflexivity|].
  destruct s as [|c s]; [discriminate|].
  cbn in H |- *. apply andb_true_iff in H as [H1 H2].
  rewrite H1, (IH s H2). reflexivity.
Qed.

Lemma test_caps4_unfold (s : string) :
  test_caps4 s = (upper_prefix 4 s ||
                  match s with
                  | EmptyString => false
                  | String _ rest => test_caps4 rest
                  end)%bool.
Proof. destruct s; reflexivity. Qed.

Lemma test_caps4_app_mono (s d : string) : test_caps4 s = true -> test_caps4 (s ++ d) = true.
Proof.
  induction s as [|a s IH]; intros H; [discriminate|].
  rewrite test_caps4_unfold in H |- *.
  apply orb_true_iff in H as [H|H]; apply orb_true_iff.
  - left. exact (upper_prefix_app_mono 4 (String a s) d H).
  - right. exact (IH H).
Qed.

Lemma test_caps4_app_l (t s : string) : test_caps4 s = true -> test_caps4 (t ++ s) = true.
Proof.
  intros H. induction t as [|a t IH]; [exact H|].
  change (String a t ++ s) with (String a (t ++ s)).
  rewrite test_caps4_unfold, IH. apply orb_true_r.
Qed.

Lemma bonus_le (b b' : bool) (k : Z) :
  0 <= k -> (b = true -> b' = true) -> (if b then k else 0) <= (if b' then k else 0).
Proof.
  intros Hk H. destruct b, b'; [lia| |lia|lia]. discriminate (H eq_refl).
Qed.

Lemma penalty_le (a b : nat) :
  (if Z.of_nat (a + b) <? 100 then 10 else 0) <= (if Z.of_nat a <? 100 then 10 else 0).
Proof.
  destruct (Z.ltb_spec (Z.of_nat (a + b)) 100), (Z.ltb_spec (Z.of_nat a) 100); lia.
Qed.

(** Adding text before or after the content never lowers the demo risk
    score: every bonus is a substring test and the only penalty is for short
    content. *)
Theorem riskScore_monotone (c d : string) :
  riskScore c <= riskScore (c ++ d) /\ riskScore c <= riskScore (d ++ c).
Proof.
  rewrite !riskScore_eq. unfold hasEmotionalWords, hasAllCaps, contentLength.
  rewrite !length_app_str.
  pose proof (bonus_le _ _ 25 ltac:(lia) (test_alt_ci_app_mono emotional_words c d)).
  pose proof (bonus_le _ _ 25 ltac:(lia) (test_alt_ci_app_l emotional_words d c)).
  pose proof (bonus_le _ _ 20 ltac:(lia) (test_caps4_app_mono c d)).
  pose proof (bonus_le _ _ 20 ltac:(lia) (test_caps4_app_l d c)).
  pose proof (bonus_le _ _ 10 ltac:(lia) (includes_app_mono c "!" d)).
  pose proof (bonus_le _ _ 10 ltac:(lia) (includes_app_r d c "!")).
  pose proof (penalty_le (String.length c) (String.length d)).
  pose proof (penalty_le (String.length c) (String.length d)).
  rewrite Nat.add_comm in H6 at 1.
  split; lia.
Qed.

(** ** [String.prototype.trim] *)

Lemma rev_str_app (a b : string) : rev_str (a ++ b) = rev_str b ++ rev_str a.
Proof.
  induction a as [|x a IH]; cbn.
  - rewrite str_append_nil_r. reflexivity.
  - rewrite IH, str_append_assoc. reflexivity.
Qed.

Lemma rev_str_involutive (s : string) : rev_str (rev_str s) = s.
Proof.
  induction s as [|a s IH]; cbn; [reflexivity|].
  rewrite rev_str_app, IH. reflexivity.
Qed.

Lemma trim_start_String (a : ascii) (s : string) :
  trim_start (String a s) = if is_js_space a then trim_start s else String a s.
Proof. reflexivity. Qed.

Lemma trim_start_shape (s : string) :
  trim_start s = "" \/ exists c r, trim_start s = String c r /\ is_js_space c = false.
Proof.
  induction s as [|a s IH]; [left; reflexivity|]. rewrite trim_start_String.
  destruct (is_js_space a) eqn:E; [exact IH|right; eauto].
Qed.

Lemma trim_start_id (c : ascii) (r : string) :
  is_js_space c = false -> trim_start (String c r) = String c r.
Proof. intros H. rewrite trim_start_String, H. reflexivity. Qed.

Lemma trim_start_fix (s : string) : trim_start (trim_start s) = trim_start s.
Proof.
  destruct (trim_start_shape s) as [E|[c [r [E Hc]]]]; rewrite E;
    [reflexivity|apply trim_start_id; exact Hc].
Qed.

Lemma trim_start_snoc (x : string) (c : ascii) :
  is_js_space c = false -> exists y, trim_start (x ++ String c "") = y ++ String c "".
Proof.
  intros Hc. induction x as [|a x IH].
  - exists "". apply trim_start_id. exact Hc.
  - change (String a x ++ String c "") with (String a (x ++ String c "")).
    rewrite trim_start_String.
    destruct (is_js_space a); [exact IH|]. exists (String a x). reflexivity.
Qed.

Lemma trim_idempotent (s : string) : trim (trim s) = trim s.
Proof.
  destruct (trim_start_shape s) as [E|[c [r [E Hc]]]].
  - unfold trim. rewrite E. reflexivity.
  - destruct (trim_start_snoc (rev_str r) c Hc) as [y Y].
    assert (T : trim s = String c (rev_str y)).
    { unfold trim. rewrite E. cbn [rev_str]. rewrite Y, rev_str_app. reflexivity. }
    rewrite T. unfold trim. rewrite (trim_start_id c (rev_str y) Hc).
    cbn [rev_str]. rewrite rev_str_involutive, <- Y, trim_start_fix, Y, rev_str_app.
    reflexivity.
Qed.

(** Both submit handlers depend only on the trimmed input: submitting
    [value.trim()] issues the same requests and ends the same way as
    submitting [value]. *)
Theorem handlers_trim_invariant (fetch_post : string -> string -> fetch_result)
  (dr : json -> option string) (now : string) (active : option string)
  (g : string -> bool) (fe je te value : string) :
  analyzeContent fetch_post dr now active (trim value)
  = analyzeContent fetch_post dr now active value
  /\ legacy_submit g fetch_post fe je te (trim value)
     = legacy_submit g fetch_post fe je te value.
Proof.
  unfold analyzeContent, legacy_submit. rewrite !trim_idempotent. split; reflexivity.
Qed.

(** ** The submit handler of lielens-frontend/script.js *)

(** script.js on a non-2xx response with a JSON object body: the error shown
    is [detail] when it is a non-empty string and "Analysis failed" when
    [detail] is missing. When [detail] is a one-element list of objects
    (FastAPI's validation error format) it is "[object Object]", unless
    that object has an own [toString] key: converting it then throws and
    the engine's TypeError message is shown instead. *)
Theorem legacy_rejection_message (g : string -> bool)
  (fetch_post : string -> string -> fetch_result) (fe je te value : string)
  (kvs : list (string * json)) :
  trim value <> "" ->
  fetch_post (backendUrl ++ "/analyze") (trim value) = FetchResponse false (Some (JObj kvs)) ->
  (get "detail" (JObj kvs) = None ->
   legacy_submit g fetch_post fe je te value
   = ([(backendUrl ++ "/analyze", trim value)], LegacyError "Analysis failed"))
  /\ (forall d, get "detail" (JObj kvs) = Some (JStr d) -> d <> "" ->
      legacy_submit g fetch_post fe je te value
      = ([(backendUrl ++ "/analyze", trim value)], LegacyError d))
  /\ (forall o, get "detail" (JObj kvs) = Some (JArr [JObj o]) ->
      legacy_submit g fetch_post fe je te value
      = ([(backendUrl ++ "/analyze", trim value)],
         LegacyError (if has_own "toString" o then te else "[object Object]"))).
Proof.
  intros Hv Hf. unfold legacy_submit. cbv zeta.
  rewrite (proj2 (String.eqb_neq _ _) Hv), Hf.
  change (getprop (Some (JObj kvs)) "detail") with (Some (get "detail" (JObj kvs))).
  split; [|split].
  - intros Hd. rewrite Hd. reflexivity.
  - intros d Hd Hne. rewrite Hd. unfold js_or, truthy.
    rewrite (proj2 (String.eqb_neq _ _) Hne). reflexivity.
  - intros o Hd. rewrite Hd. cbn. destruct (has_own "toString" o); reflexivity.
Qed.

Lemma legacy_rejection_message_witness :
  legacy_submit (fun _ => false)
    (fun _ _ => FetchResponse false (Some (JObj [("detail", JStr "Content too long")])))
    "network" "syntax" "type" "  hello"
  = ([(backendUrl ++ "/analyze", "hello")], LegacyError "Content too long").
Proof.
  apply (proj1 (proj2 (legacy_rejection_message (fun _ => false)
           (fun _ _ => FetchResponse false (Some (JObj [("detail", JStr "Content too long")])))
           "network" "syntax" "type" "  hello" [("detail", JStr "Content too long")]
           ltac:(vm_compute; discriminate) eq_refl)) "Content too long").
  - reflexivity.
  - discriminate.
Defined.

(** script.js never shows a report it did not receive: whenever the handler
    ends with a report shown, the POST to [backendUrl/analyze] with the
    trimmed input answered 2xx with a JSON body, and that body is what was
    rendered. There is no demo fallback. *)
Theorem legacy_shown_only_from_backend (g : string -> bool)
  (fetch_post : string -> string -> fetch_result) (fe je te value : string) (v : view) :
  snd (legacy_submit g fetch_post fe je te value) = LegacyShown v ->
  exists data,
    fetch_post (backendUrl ++ "/analyze") (trim value) = FetchResponse true (Some data)
    /\ displayReport_legacy g data = Some v.
Proof.
  unfold legacy_submit. cbv zeta.
  destruct (String.eqb (trim value) ""); [discriminate|]. cbn [snd].
  destruct (fetch_post _ _) as [|[] [data|]]; try discriminate.
  - destruct (displayReport_legacy g data) eqn:E; intros H; inversion H; subst; eauto.
  - destruct (getprop _ _) as [d|]; [destruct (js_to_string _)|]; discriminate.
Qed.

Lemma legacy_shown_only_from_backend_witness :
  exists v,
    snd (legacy_submit (fun _ => false)
           (fun _ _ => FetchResponse true (Some (getDemoAnalysis "Act now!" "t")))
           "network" "syntax" "type" "Act now!") = LegacyShown v
    /\ exists data,
      FetchResponse true (Some (getDemoAnalysis "Act now!" "t"))
      = FetchResponse true (Some data)
      /\ displayReport_legacy (fun _ => false) data = Some v.
Proof.
  eexists. split.
  - reflexivity.
  - apply (legacy_shown_only_from_backend (fun _ => false)
             (fun _ _ => FetchResponse true (Some (getDemoAnalysis "Act now!" "t")))
             "network" "syntax" "type" "Act now!").
    reflexivity.
Defined.


(** ** A string where a list is expected *)

Lemma guarded_list_nonempty_string (g : string -> bool) (s : string) :
  s <> "" -> guarded_list g (Some (JStr s)) = None.
Proof.
  intros Hs. unfold guarded_list, truthy.
  rewrite (proj2 (String.eqb_neq _ _) Hs). cbn.
  destruct s as [|a s]; [contradiction|]. reflexivity.
Qed.

(** Both versions of [displayReport] throw when [detected_tactics] is a
    non-empty string: the guard [v && v.length > 0] lets it through and
    strings have no [forEach]. *)
Theorem string_tactics_field_throws (g : string -> bool) (enhanced : bool)
  (kvs : list (string * json)) (s : string) :
  get "detected_tactics" (JObj kvs) = Some (JStr s) -> s <> "" ->
  display_report g enhanced (JObj kvs) = None.
Proof.
  intros Hd Hs. unfold display_report.
  destruct (render_summary enhanced (JObj kvs)); [|reflexivity]. cbn [obind].
  change (getprop (Some (JObj kvs)) "detected_tactics")
    with (Some (get "detected_tactics" (JObj kvs))).
  rewrite Hd. cbn [obind]. unfold cards. rewrite (guarded_list_nonempty_string g s Hs).
  reflexivity.
Qed.

Lemma string_tactics_field_throws_witness :
  displayReport (fun _ => false) (JObj [("detected_tactics", JStr "none found")]) = None
  /\ displayReport_legacy (fun _ => false)
       (JObj [("analysis_summary", JObj []); ("detected_tactics", JStr "none found")]) = None.
Proof.
  split.
  - apply (string_tactics_field_throws (fun _ => false) true
             [("detected_tactics", JStr "none found")] "none found");
      [reflexivity|discriminate].
  - apply (string_tactics_field_throws (fun _ => false) false
             [("analysis_summary", JObj []); ("detected_tactics", JStr "none found")] "none found");
      [reflexivity|discriminate].
Defined.
